(** * servidor.js: the CRUD service over the table [usuarios]

    A shallow embedding of
    [ejemplos_de_clase/ajax_curso2526 _bueno/servidor.js]: five Express
    routes, each of which hands at most one SQL statement to the shared
    connection [db] and answers from the callback of [db.query]. *)

From Stdlib Require Import ZArith List Ascii String Bool Lia.
From stdpp Require Import base option gmap strings pretty.
Import ListNotations.

Local Open Scope Z_scope.
Local Open Scope string_scope.

(** ** JavaScript values *)

(** The values that travel through the routes: what [express.json()] parses
    out of a request body, what [mysql2] puts in a result row, and what is
    handed to [res.json].  Numbers are the integers (ids, counts and integer
    literals of a JSON body); [JUndefined] is what destructuring yields for
    a property that is not there. *)
#[warnings="-register-all"]
Inductive JsVal : Type :=
| JUndefined
| JNull
| JBool (b : bool)
| JNum (n : Z)
| JStr (s : string)
| JArr (items : list JsVal)
| JObj (props : list (string * JsVal)).

(** [!v] is [negb (truthy v)]: the falsy values are [undefined], [null],
    [false], [0] and the empty string; arrays and objects are truthy. *)
Definition truthy (v : JsVal) : bool :=
  match v with
  | JUndefined | JNull => false
  | JBool b => b
  | JNum n => negb (Z.eqb n 0)
  | JStr s => negb (String.eqb s "")
  | JArr _ | JObj _ => true
  end.

(** ** Requests and responses *)

(** [req.params.id] is the path segment matched by [:id], always a string;
    [req.body] is the object parsed by [express.json()].  The two routes on
    [/api/usuarios] never look at [params_id]. *)
Record Request := {
  params_id : string;
  body : gmap string JsVal
}.

(** [const { nombre } = req.body]: the property, or [undefined]. *)
Definition prop (o : gmap string JsVal) (k : string) : JsVal :=
  default JUndefined (o !! k).

(** The response under construction: Express starts it with status 200. *)
Record Res := { statusCode : Z }.

Definition res : Res := {| statusCode := 200 |}.

Definition status (c : Z) (r : Res) : Res := {| statusCode := c |}.

(** What the client receives: [json v r] sends [v] with the status of [r]. *)
Record Response := {
  code : Z;
  payload : JsVal
}.

Definition json (v : JsVal) (r : Res) : Response :=
  {| code := statusCode r; payload := v |}.

(** ** The connection *)

(** The [err] argument of a callback. *)
Record JsError := { message : string }.

(** The [results] argument of a callback: an array of row objects for a
    SELECT, a result header for INSERT, UPDATE and DELETE. *)
Inductive Results : Type :=
| Rows (rows : list JsVal)
| Header (insertId affectedRows : Z).

(** The callback of [db.query] gets [(err, results)] with [err] null on
    success. *)
Inductive Outcome : Type :=
| Failed (err : JsError)
| Succeeded (results : Results).

(** [results] as a value, for [res.json(results)]; of a result header the
    model keeps [insertId] and [affectedRows]. *)
Definition value_of (r : Results) : JsVal :=
  match r with
  | Rows rows => JArr rows
  | Header i n => JObj [("affectedRows", JNum n); ("insertId", JNum i)]
  end.

(** [results.length], [results[0]] and [result.insertId]; a property that
    is not there reads as [undefined]. *)
Definition length_of (r : Results) : JsVal :=
  match r with
  | Rows rows => JNum (Z.of_nat (List.length rows))
  | Header _ _ => JUndefined
  end.

Definition first_of (r : Results) : JsVal :=
  match r with
  | Rows (row :: _) => row
  | Rows [] => JUndefined
  | Header _ _ => JUndefined
  end.

Definition insertId_of (r : Results) : JsVal :=
  match r with
  | Rows _ => JUndefined
  | Header i _ => JNum i
  end.

(** [v === 0] *)
Definition is_zero (v : JsVal) : bool :=
  match v with
  | JNum n => Z.eqb n 0
  | _ => false
  end.

(** A route either answers at once or hands one statement, its values and
    a callback to [db.query]. *)
Inductive Handler : Type :=
| Done (r : Response)
| Query (sql : string) (values : list JsVal) (callback : Outcome -> Response).

(** ** The routes *)

(** [{ error: err.message }] and [{ message: m }] *)
Definition error_body (err : JsError) : JsVal :=
  JObj [("error", JStr (message err))].

Definition message_body (m : string) : JsVal :=
  JObj [("message", JStr m)].

(** [app.get('/api/usuarios', ...)] *)
Definition get_usuarios (req : Request) : Handler :=
  let sql := "SELECT * FROM usuarios" in
  Query sql [] (fun o =>
    match o with
    | Failed err => json (error_body err) (status 500 res)
    | Succeeded results => json (value_of results) res
    end).

(** [app.get('/api/usuarios/:id', ...)] *)
Definition get_usuario (req : Request) : Handler :=
  let id := params_id req in
  Query "SELECT * FROM usuarios WHERE id = ?" [JStr id] (fun o =>
    match o with
    | Failed err => json (error_body err) (status 500 res)
    | Succeeded results =>
        if is_zero (length_of results)
        then json (message_body "Usuario no encontrado") (status 404 res)
        else json (first_of results) res
    end).

(** [app.post('/api/usuarios', ...)] *)
Definition post_usuario (req : Request) : Handler :=
  let nombre := prop (body req) "nombre" in
  let telefono := prop (body req) "telefono" in
  let email := prop (body req) "email" in
  if negb (truthy nombre) || negb (truthy email)
  then Done (json (message_body "Nombre y email son obligatorios") (status 400 res))
  else
    let sql := "INSERT INTO usuarios (nombre, telefono, email) VALUES (?, ?, ?)" in
    Query sql [nombre; telefono; email] (fun o =>
      match o with
      | Failed err => json (error_body err) (status 500 res)
      | Succeeded result =>
          json (JObj [("id", insertId_of result); ("nombre", nombre);
                      ("telefono", telefono); ("email", email)])
               (status 201 res)
      end).

(** [app.put('/api/usuarios/:id', ...)] *)
Definition put_usuario (req : Request) : Handler :=
  let id := params_id req in
  let nombre := prop (body req) "nombre" in
  let telefono := prop (body req) "telefono" in
  let email := prop (body req) "email" in
  let sql := "UPDATE usuarios SET nombre = ?, telefono = ?, email = ? WHERE id = ?" in
  Query sql [nombre; telefono; email; JStr id] (fun o =>
    match o with
    | Failed err => json (error_body err) (status 500 res)
    | Succeeded result => json (message_body "Usuario actualizado correctamente") res
    end).

(** [app.delete('/api/usuarios/:id', ...)] *)
Definition delete_usuario (req : Request) : Handler :=
  let id := params_id req in
  Query "DELETE FROM usuarios WHERE id = ?" [JStr id] (fun o =>
    match o with
    | Failed err => json (error_body err) (status 500 res)
    | Succeeded result => json (message_body "Usuario eliminado correctamente") res
    end).

(** The five registrations [app.get], [app.post], [app.put], [app.delete]. *)
Inductive Route : Type :=
| GET_usuarios
| GET_usuarios_id
| POST_usuarios
| PUT_usuarios_id
| DELETE_usuarios_id.

Definition app (r : Route) : Request -> Handler :=
  match r with
  | GET_usuarios => get_usuarios
  | GET_usuarios_id => get_usuario
  | POST_usuarios => post_usuario
  | PUT_usuarios_id => put_usuario
  | DELETE_usuarios_id => delete_usuario
  end.

(** [db]: whatever executes a statement with its values against a state
    [DB], reports an outcome and leaves a new state. *)
Class Connection (DB : Type) :=
  query : string -> list JsVal -> DB -> Outcome * DB.

(** Serving one request: the statement, if any, goes to the connection and
    the callback turns its outcome into the response. *)
Definition run {DB} {conn : Connection DB} (h : Handler) (db : DB)
  : Response * DB :=
  match h with
  | Done r => (r, db)
  | Query sql values callback =>
      let (o, db') := query sql values db in (callback o, db')
  end.

Definition serve {DB} {conn : Connection DB} (r : Route) (req : Request)
  (db : DB) : Response * DB :=
  run (app r req) db.

(** Requests served one after the other on the same connection. *)
Fixpoint serve_all {DB} {conn : Connection DB} (rs : list (Route * Request))
  (db : DB) : list Response * DB :=
  match rs with
  | [] => ([], db)
  | (r, req) :: rest =>
      let (resp, db1) := serve r req db in
      let (resps, db2) := serve_all rest db1 in
      (resp :: resps, db2)
  end.

(** ** The table [usuarios] *)

(** Modelled from the spec: the relational store behind [db] (the table
    [usuarios] and the engine that runs the statements).  The spec gives a
    table with an auto-generated integer primary key [id] and the text
    columns [nombre], [telefono] and [email]; rows come back in insertion
    order, an update overwrites the three text columns of the rows it
    matches, a delete removes them, and a generated id is never handed out
    twice.  The text columns are taken nullable and unbounded. *)
Record Usuario := {
  u_id : Z;
  u_nombre : option string;
  u_telefono : option string;
  u_email : option string
}.

(** The rows in insertion order, and the id the next insert is given. *)
Record Tabla := {
  filas : list Usuario;
  auto_increment : Z
}.

(** A freshly created table. *)
Definition vacia : Tabla := {| filas := []; auto_increment := 1 |}.

(** Modelled from the spec: a bound value as it lands in a text column.
    [undefined] and [null] are stored as NULL, a string as itself, a number
    and a boolean as their text.  An array or an object is not one value
    for the engine; the model reports such a statement as failed. *)
Definition column (v : JsVal) : option (option string) :=
  match v with
  | JUndefined | JNull => Some None
  | JStr s => Some (Some s)
  | JNum n => Some (Some (pretty n))
  | JBool b => Some (Some (if b then "1" else "0"))
  | JArr _ | JObj _ => None
  end.

(** Modelled from the spec: how the engine decides [id = ?] for a bound
    value against a stored id.  The engine casts a text to a number before
    it compares; nothing below depends on how, so the comparison is left
    open. *)
Class IdComparison := id_eq : JsVal -> Z -> bool.

(** The comparison that reads a text as the decimal numeral of the id. *)
Definition decimal_ids : IdComparison :=
  fun v i =>
    match v with
    | JStr s => String.eqb s (pretty i)
    | JNum n => Z.eqb n i
    | _ => false
    end.

(** A column read back into a row object: NULL is [null]. *)
Definition text (c : option string) : JsVal :=
  match c with
  | Some s => JStr s
  | None => JNull
  end.

Definition row_of (u : Usuario) : JsVal :=
  JObj [("id", JNum (u_id u)); ("nombre", text (u_nombre u));
        ("telefono", text (u_telefono u)); ("email", text (u_email u))].

(** The five statements of the service, with their bound values. *)
Inductive Statement : Type :=
| SelectAll
| SelectById (id : JsVal)
| Insert (nombre telefono email : JsVal)
| Update (nombre telefono email id : JsVal)
| Delete (id : JsVal).

(** The statement is recognised by its text; the values fill the
    placeholders in order and must be as many as the placeholders. *)
Definition prepare (sql : string) (values : list JsVal) : option Statement :=
  if String.eqb sql "SELECT * FROM usuarios" then
    match values with [] => Some SelectAll | _ => None end
  else if String.eqb sql "SELECT * FROM usuarios WHERE id = ?" then
    match values with [i] => Some (SelectById i) | _ => None end
  else if String.eqb sql "INSERT INTO usuarios (nombre, telefono, email) VALUES (?, ?, ?)" then
    match values with [n; t; e] => Some (Insert n t e) | _ => None end
  else if String.eqb sql "UPDATE usuarios SET nombre = ?, telefono = ?, email = ? WHERE id = ?" then
    match values with [n; t; e; i] => Some (Update n t e i) | _ => None end
  else if String.eqb sql "DELETE FROM usuarios WHERE id = ?" then
    match values with [i] => Some (Delete i) | _ => None end
  else None.

(** The error of a statement the engine does not accept. *)
Definition rejected : JsError := {| message := "ER_PARSE_ERROR" |}.

Section Engine.
Context {cmp : IdComparison}.

(** The row satisfies [id = ?] for the bound value [v]. *)
Definition matches (v : JsVal) (u : Usuario) : bool := id_eq v (u_id u).

(** [SET nombre = ?, telefono = ?, email = ?] on the rows that match. *)
Definition overwrite (n t e : option string) (v : JsVal) (u : Usuario) : Usuario :=
  if matches v u
  then {| u_id := u_id u; u_nombre := n; u_telefono := t; u_email := e |}
  else u.

(** The number of rows that match. *)
Definition affected (v : JsVal) (t : Tabla) : Z :=
  Z.of_nat (List.length (List.filter (matches v) (filas t))).

(** Modelled from the spec: what the engine does with each statement.  A
    SELECT returns the rows and changes nothing; an INSERT appends a row
    under the next generated id and reports that id; an UPDATE and a DELETE
    succeed on any number of matching rows, zero included. *)
Definition execute (st : Statement) (t : Tabla) : Outcome * Tabla :=
  match st with
  | SelectAll =>
      (Succeeded (Rows (List.map row_of (filas t))), t)
  | SelectById v =>
      (Succeeded (Rows (List.map row_of (List.filter (matches v) (filas t)))), t)
  | Insert vn vt ve =>
      match column vn, column vt, column ve with
      | Some n, Some tl, Some e =>
          let u := {| u_id := auto_increment t; u_nombre := n;
                      u_telefono := tl; u_email := e |} in
          (Succeeded (Header (auto_increment t) 1),
           {| filas := filas t ++ [u]; auto_increment := auto_increment t + 1 |})
      | _, _, _ => (Failed rejected, t)
      end
  | Update vn vt ve v =>
      match column vn, column vt, column ve with
      | Some n, Some tl, Some e =>
          (Succeeded (Header 0 (affected v t)),
           {| filas := List.map (overwrite n tl e v) (filas t);
              auto_increment := auto_increment t |})
      | _, _, _ => (Failed rejected, t)
      end
  | Delete v =>
      (Succeeded (Header 0 (affected v t)),
       {| filas := List.filter (fun u => negb (matches v u)) (filas t);
          auto_increment := auto_increment t |})
  end.

(** [db.query] against the table. *)
#[export] Instance tabla_connection : Connection Tabla :=
  fun sql values t =>
    match prepare sql values with
    | Some st => execute st t
    | None => (Failed rejected, t)
    end.
End Engine.

(** A store that cannot be reached: every statement fails with the error of
    the connection and there is no state to change. *)
Definition unreachable (e : JsError) : Connection unit :=
  fun _ _ _ => (Failed e, tt).

(** ** What a route sends to the connection *)

(** The number of [?] placeholders of a statement text. *)
Fixpoint placeholders (sql : string) : nat :=
  match sql with
  | EmptyString => 0%nat
  | String c rest =>
      ((if Ascii.eqb c "?"%char then 1 else 0) + placeholders rest)%nat
  end.

(** The values a route takes from the caller, in the order of the
    placeholders of its statement: the path parameter and the three
    properties of the body. *)
Definition caller_values (r : Route) (req : Request) : list JsVal :=
  match r with
  | GET_usuarios => []
  | GET_usuarios_id => [JStr (params_id req)]
  | POST_usuarios =>
      [prop (body req) "nombre"; prop (body req) "telefono"; prop (body req) "email"]
  | PUT_usuarios_id =>
      [prop (body req) "nombre"; prop (body req) "telefono"; prop (body req) "email";
       JStr (params_id req)]
  | DELETE_usuarios_id => [JStr (params_id req)]
  end.

(** ** Requests and tables of the scenarios *)

(** [POST /api/usuarios {"telefono":"123"}] *)
Definition solo_telefono : Request :=
  {| params_id := ""; body := {[ "telefono" := JStr "123" ]} |}.

(** [POST /api/usuarios {"name":"Ana","email":"ana@x.com"}] *)
Definition ana_name : Request :=
  {| params_id := "";
     body := {[ "name" := JStr "Ana"; "email" := JStr "ana@x.com" ]} |}.

(** [POST /api/usuarios {"nombre":"Ana","email":"ana@x.com"}] *)
Definition ana_nombre : Request :=
  {| params_id := "";
     body := {[ "nombre" := JStr "Ana"; "email" := JStr "ana@x.com" ]} |}.

(** [POST /api/usuarios {"nombre":"","email":"ana@x.com"}] *)
Definition nombre_vacio : Request :=
  {| params_id := "";
     body := {[ "nombre" := JStr ""; "email" := JStr "ana@x.com" ]} |}.

(** A request on [/api/usuarios/:id] with an empty body. *)
Definition by_id (id : string) : Request :=
  {| params_id := id; body := ∅ |}.

(** [PUT /api/usuarios/1 {"nombre":"Eva","telefono":"600","email":"eva@x.com"}] *)
Definition eva_1 : Request :=
  {| params_id := "1";
     body := {[ "nombre" := JStr "Eva"; "telefono" := JStr "600";
                "email" := JStr "eva@x.com" ]} |}.

(** The table after Ana was created in a fresh one. *)
Definition solo_ana : Tabla :=
  {| filas := [ {| u_id := 1; u_nombre := Some "Ana"; u_telefono := None;
                   u_email := Some "ana@x.com" |} ];
     auto_increment := 2 |}.

(** The table [usuarios] reached with ids compared as decimal numerals. *)
Definition mysql : Connection Tabla := @tabla_connection decimal_ids.

(** Every id of the table is below the counter of generated ids. *)
Definition below_counter (t : Tabla) : Prop :=
  Forall (fun u => u_id u < auto_increment t) (filas t).

(** ** The answers of a route *)

(** The status codes written in a route: the [res.status(...)] of its
    branches, and 200 where [res.json] is called on the fresh response. *)
Definition statuses (r : Route) : list Z :=
  match r with
  | GET_usuarios => [200; 500]
  | GET_usuarios_id => [200; 404; 500]
  | POST_usuarios => [201; 400; 500]
  | PUT_usuarios_id => [200; 500]
  | DELETE_usuarios_id => [200; 500]
  end.

(** The outcome of the statement a route hands to the connection, when it
    hands one. *)
Definition issued {DB} {conn : Connection DB} (h : Handler) (db : DB)
  : option Outcome :=
  match h with
  | Done _ => None
  | Query sql values _ => Some (fst (query sql values db))
  end.

(** [POST /api/usuarios {"nombre":5,"email":"cinco@x.com"}] *)
Definition cinco : Request :=
  {| params_id := "";
     body := {[ "nombre" := JNum 5; "email" := JStr "cinco@x.com" ]} |}.

(** Ana again, with properties no route reads and a path id. *)
Definition ana_extra : Request :=
  {| params_id := "7";
     body := {[ "nombre" := JStr "Ana"; "email" := JStr "ana@x.com";
                "id" := JNum 99; "rol" := JStr "admin" ]} |}.


(** A value that a nullable text column gives back as it was bound: a
    string or [null]. *)
Definition textual (v : JsVal) : bool :=
  match v with
  | JStr _ | JNull => true
  | _ => false
  end.

(** [PUT /api/usuarios/1 {"nombre":"Eva","telefono":600123123,"email":"eva@x.com"}] *)
Definition eva_numero : Request :=
  {| params_id := "1";
     body := {[ "nombre" := JStr "Eva"; "telefono" := JNum 600123123;
                "email" := JStr "eva@x.com" ]} |}.

(** [PUT /api/usuarios/1 {"nombre":"Eva","telefono":null,"email":"eva@x.com"}] *)
Definition eva_null : Request :=
  {| params_id := "1";
     body := {[ "nombre" := JStr "Eva"; "telefono" := JNull;
                "email" := JStr "eva@x.com" ]} |}.


(** * Properties *)

(** ** Serving a request *)

Lemma run_done {DB} {conn : Connection DB} (r : Response) (db : DB) :
  run (Done r) db = (r, db).
Proof. reflexivity. Qed.

Lemma run_query {DB} {conn : Connection DB} sql values callback
  (db db' : DB) (o : Outcome) :
  query sql values db = (o, db') ->
  run (Query sql values callback) db = (callback o, db').
Proof. intros Hq. unfold run. rewrite Hq. reflexivity. Qed.

(** The falsy values, one by one. *)
Lemma truthy_false_iff (v : JsVal) :
  truthy v = false <->
  v = JUndefined \/ v = JNull \/ v = JBool false \/ v = JNum 0 \/ v = JStr "".
Proof.
  split.
  - destruct v as [| |b|n|s| |]; simpl; intros Hv; try discriminate; auto.
    + destruct b; [discriminate | auto].
    + apply negb_false_iff, Z.eqb_eq in Hv. subst n. auto 6.
    + apply negb_false_iff, String.eqb_eq in Hv. subst s. auto 6.
  - intros [-> | [-> | [-> | [-> | ->]]]]; reflexivity.
Qed.

(** A property that is absent reads as [undefined], which is falsy. *)
Lemma prop_absent (o : gmap string JsVal) (k : string) :
  o !! k = None -> truthy (prop o k) = false.
Proof. intros Hk. unfold prop. rewrite Hk. reflexivity. Qed.

(** ** Create: validation *)

(** The guard [!nombre || !email] answers 400 without reaching [db.query]. *)
Lemma post_usuario_falsy (req : Request) :
  truthy (prop (body req) "nombre") = false \/
  truthy (prop (body req) "email") = false ->
  post_usuario req =
  Done (json (message_body "Nombre y email son obligatorios") (status 400 res)).
Proof.
  intros Hf. unfold post_usuario. cbv zeta.
  destruct Hf as [Hf | Hf]; rewrite Hf; simpl.
  - reflexivity.
  - rewrite orb_true_r. reflexivity.
Qed.

(** Past the guard the INSERT is issued with the three properties bound. *)
Lemma post_usuario_truthy (req : Request) :
  truthy (prop (body req) "nombre") = true ->
  truthy (prop (body req) "email") = true ->
  exists callback,
    post_usuario req =
    Query "INSERT INTO usuarios (nombre, telefono, email) VALUES (?, ?, ?)"
          [prop (body req) "nombre"; prop (body req) "telefono";
           prop (body req) "email"] callback.
Proof.
  intros Hn He. unfold post_usuario. cbv zeta. rewrite Hn, He. simpl.
  eexists. reflexivity.
Qed.

(** C1: a Create whose body has no [nombre] (the record's name field) or no
    [email] is answered 400 with [{message: 'Nombre y email son
    obligatorios'}]; the route issues no statement, so whatever the
    connection, the state of the store is the one before the request. *)
Theorem create_absent_field_rejected {DB} {conn : Connection DB}
  (req : Request) (db : DB) :
  body req !! "nombre" = None \/ body req !! "email" = None ->
  post_usuario req =
    Done {| code := 400;
            payload := JObj [("message", JStr "Nombre y email son obligatorios")] |}
  /\ serve POST_usuarios req db =
       ({| code := 400;
           payload := JObj [("message", JStr "Nombre y email son obligatorios")] |},
        db).
Proof.
  intros Habs.
  assert (Hd : post_usuario req =
               Done (json (message_body "Nombre y email son obligatorios")
                          (status 400 res))).
  { apply post_usuario_falsy.
    destruct Habs as [Hn | He]; [left | right]; apply prop_absent; assumption. }
  split; [exact Hd |].
  unfold serve, app. rewrite Hd. reflexivity.
Qed.

Lemma create_absent_field_rejected_witness :
  body solo_telefono !! "nombre" = None /\
  serve (conn := mysql) POST_usuarios solo_telefono vacia =
    ({| code := 400;
        payload := JObj [("message", JStr "Nombre y email son obligatorios")] |},
     vacia).
Proof.
  split; [reflexivity |].
  apply (create_absent_field_rejected (conn := mysql) solo_telefono vacia).
  left. reflexivity.
Defined.

(** C9: a Create is refused for every falsy [nombre] or [email], absent or
    not ([undefined], [null], [false], [0], the empty string): the answer is
    400 with the same message and no statement is issued. *)
Theorem create_falsy_field_rejected {DB} {conn : Connection DB}
  (req : Request) (db : DB) :
  truthy (prop (body req) "nombre") = false \/
  truthy (prop (body req) "email") = false ->
  post_usuario req =
    Done {| code := 400;
            payload := JObj [("message", JStr "Nombre y email son obligatorios")] |}
  /\ serve POST_usuarios req db =
       ({| code := 400;
           payload := JObj [("message", JStr "Nombre y email son obligatorios")] |},
        db).
Proof.
  intros Hf. apply post_usuario_falsy in Hf.
  split; [exact Hf |].
  unfold serve, app. rewrite Hf. reflexivity.
Qed.

Lemma create_falsy_field_rejected_witness :
  prop (body nombre_vacio) "nombre" = JStr "" /\
  serve (conn := mysql) POST_usuarios nombre_vacio solo_ana =
    ({| code := 400;
        payload := JObj [("message", JStr "Nombre y email son obligatorios")] |},
     solo_ana).
Proof.
  split; [reflexivity |].
  apply (create_falsy_field_rejected (conn := mysql) nombre_vacio solo_ana).
  left. reflexivity.
Defined.

(** C2, as stated: the body [{"name":"Ana","email":"ana@x.com"}] has no
    [nombre]; on the fresh table the answer is 400, not the 201 of the
    scenario, and nothing is inserted. *)
Lemma create_name_ana_rejected :
  serve (conn := mysql) POST_usuarios ana_name vacia =
    ({| code := 400;
        payload := JObj [("message", JStr "Nombre y email son obligatorios")] |},
     vacia)
  /\ fst (serve (conn := mysql) POST_usuarios ana_name vacia) <>
     {| code := 201;
        payload := JObj [("id", JNum 1); ("nombre", JStr "Ana");
                         ("telefono", JUndefined); ("email", JStr "ana@x.com")] |}.
Proof.
  split; [reflexivity |].
  intros Heq. apply (f_equal code) in Heq. vm_compute in Heq. discriminate.
Qed.

(** C2, amended: with the property named [nombre], the first Create on a
    fresh table is answered 201 with
    [{id: 1, nombre: 'Ana', telefono: undefined, email: 'ana@x.com'}], and
    the row is stored under id 1 with a NULL [telefono]. *)
Theorem create_nombre_ana_created {cmp : IdComparison} :
  serve POST_usuarios ana_nombre vacia =
    ({| code := 201;
        payload := JObj [("id", JNum 1); ("nombre", JStr "Ana");
                         ("telefono", JUndefined); ("email", JStr "ana@x.com")] |},
     solo_ana).
Proof. reflexivity. Qed.

(** ** Update and Delete: the answer on success *)

(** What the engine answers on the table: the statement touches the rows
    the id matches, possibly none, and succeeds all the same. *)
Lemma tabla_delete {cmp : IdComparison} (v : JsVal) (t : Tabla) :
  query (DB := Tabla) "DELETE FROM usuarios WHERE id = ?" [v] t =
  (Succeeded (Header 0 (affected v t)),
   {| filas := List.filter (fun u => negb (matches v u)) (filas t);
      auto_increment := auto_increment t |}).
Proof. reflexivity. Qed.

Lemma tabla_update {cmp : IdComparison} (vn vt ve v : JsVal) (t : Tabla)
  (n tl e : option string) :
  column vn = Some n -> column vt = Some tl -> column ve = Some e ->
  query (DB := Tabla)
        "UPDATE usuarios SET nombre = ?, telefono = ?, email = ? WHERE id = ?"
        [vn; vt; ve; v] t =
  (Succeeded (Header 0 (affected v t)),
   {| filas := List.map (overwrite n tl e v) (filas t);
      auto_increment := auto_increment t |}).
Proof.
  intros Hn Ht He.
  change (execute (Update vn vt ve v) t = (Succeeded (Header 0 (affected v t)),
   {| filas := List.map (overwrite n tl e v) (filas t);
      auto_increment := auto_increment t |})).
  simpl. rewrite Hn, Ht, He. reflexivity.
Qed.

Lemma tabla_select_by_id {cmp : IdComparison} (v : JsVal) (t : Tabla) :
  query (DB := Tabla) "SELECT * FROM usuarios WHERE id = ?" [v] t =
  (Succeeded (Rows (List.map row_of (List.filter (matches v) (filas t)))), t).
Proof. reflexivity. Qed.

Lemma tabla_select_all {cmp : IdComparison} (t : Tabla) :
  query (DB := Tabla) "SELECT * FROM usuarios" [] t =
  (Succeeded (Rows (List.map row_of (filas t))), t).
Proof. reflexivity. Qed.

Lemma tabla_insert {cmp : IdComparison} (vn vt ve : JsVal) (t : Tabla)
  (n tl e : option string) :
  column vn = Some n -> column vt = Some tl -> column ve = Some e ->
  query (DB := Tabla)
        "INSERT INTO usuarios (nombre, telefono, email) VALUES (?, ?, ?)"
        [vn; vt; ve] t =
  (Succeeded (Header (auto_increment t) 1),
   {| filas := filas t ++ [ {| u_id := auto_increment t; u_nombre := n;
                               u_telefono := tl; u_email := e |} ];
      auto_increment := auto_increment t + 1 |}).
Proof.
  intros Hn Ht He.
  change (execute (Insert vn vt ve) t = (Succeeded (Header (auto_increment t) 1),
   {| filas := filas t ++ [ {| u_id := auto_increment t; u_nombre := n;
                               u_telefono := tl; u_email := e |} ];
      auto_increment := auto_increment t + 1 |})).
  simpl. rewrite Hn, Ht, He. reflexivity.
Qed.

(** An id that matches no row: no row is affected. *)
Lemma affected_none {cmp : IdComparison} (v : JsVal) (t : Tabla) :
  Forall (fun u => matches v u = false) (filas t) -> affected v t = 0.
Proof.
  unfold affected. intros Hall.
  induction Hall as [| u l Hu _ IH]; simpl; [reflexivity |].
  rewrite Hu. exact IH.
Qed.

(** C3: when the UPDATE, respectively the DELETE, comes back without an
    error, whatever result it carries (any number of affected rows, zero
    included), the answer is 200 with the confirmation message; it is never
    404. *)
Theorem update_delete_report_success {DB} {conn : Connection DB}
  (req : Request) (db db' : DB) (result : Results) :
  (query "UPDATE usuarios SET nombre = ?, telefono = ?, email = ? WHERE id = ?"
         [prop (body req) "nombre"; prop (body req) "telefono";
          prop (body req) "email"; JStr (params_id req)] db
     = (Succeeded result, db') ->
   serve PUT_usuarios_id req db =
     ({| code := 200;
         payload := JObj [("message", JStr "Usuario actualizado correctamente")] |},
      db'))
  /\
  (query "DELETE FROM usuarios WHERE id = ?" [JStr (params_id req)] db
     = (Succeeded result, db') ->
   serve DELETE_usuarios_id req db =
     ({| code := 200;
         payload := JObj [("message", JStr "Usuario eliminado correctamente")] |},
      db')).
Proof.
  split; intros Hq; unfold serve, app.
  - unfold put_usuario. cbv zeta. rewrite (run_query _ _ _ _ _ _ Hq). reflexivity.
  - unfold delete_usuario. cbv zeta. rewrite (run_query _ _ _ _ _ _ Hq). reflexivity.
Qed.

Lemma update_delete_report_success_witness :
  affected (cmp := decimal_ids) (JStr "999") solo_ana = 0
  /\ serve (conn := mysql) PUT_usuarios_id
       {| params_id := "999"; body := body eva_1 |} solo_ana =
       ({| code := 200;
           payload := JObj [("message", JStr "Usuario actualizado correctamente")] |},
        solo_ana)
  /\ serve (conn := mysql) DELETE_usuarios_id (by_id "999") solo_ana =
       ({| code := 200;
           payload := JObj [("message", JStr "Usuario eliminado correctamente")] |},
        solo_ana).
Proof.
  split; [reflexivity |]. split.
  - apply (proj1 (update_delete_report_success (conn := mysql)
             {| params_id := "999"; body := body eva_1 |} solo_ana solo_ana
             (Header 0 0))).
    reflexivity.
  - apply (proj2 (update_delete_report_success (conn := mysql)
             (by_id "999") solo_ana solo_ana (Header 0 0))).
    reflexivity.
Defined.

(** ** Get by id *)

(** C4: when the SELECT by id comes back without an error and with no row,
    the answer is 404 with [{message: 'Usuario no encontrado'}]; when it
    comes back with exactly one row, the answer is 200 with that row. *)
Theorem get_by_id_not_found_or_record {DB} {conn : Connection DB}
  (req : Request) (db db' : DB) :
  (query "SELECT * FROM usuarios WHERE id = ?" [JStr (params_id req)] db
     = (Succeeded (Rows []), db') ->
   serve GET_usuarios_id req db =
     ({| code := 404;
         payload := JObj [("message", JStr "Usuario no encontrado")] |}, db'))
  /\
  (forall row : JsVal,
     query "SELECT * FROM usuarios WHERE id = ?" [JStr (params_id req)] db
       = (Succeeded (Rows [row]), db') ->
     serve GET_usuarios_id req db = ({| code := 200; payload := row |}, db')).
Proof.
  split; [intros Hq | intros row Hq]; unfold serve, app, get_usuario; cbv zeta;
    rewrite (run_query _ _ _ _ _ _ Hq); reflexivity.
Qed.

Lemma get_by_id_not_found_or_record_witness :
  serve (conn := mysql) GET_usuarios_id (by_id "999") solo_ana =
    ({| code := 404;
        payload := JObj [("message", JStr "Usuario no encontrado")] |}, solo_ana)
  /\ serve (conn := mysql) GET_usuarios_id (by_id "1") solo_ana =
       ({| code := 200;
           payload := JObj [("id", JNum 1); ("nombre", JStr "Ana");
                            ("telefono", JNull); ("email", JStr "ana@x.com")] |},
        solo_ana).
Proof.
  split.
  - apply (proj1 (get_by_id_not_found_or_record (conn := mysql)
                    (by_id "999") solo_ana solo_ana)).
    reflexivity.
  - apply (proj2 (get_by_id_not_found_or_record (conn := mysql)
                    (by_id "1") solo_ana solo_ana)).
    reflexivity.
Defined.

(** ** Store errors *)

(** Every callback starts with [if (err)]: a failure is answered 500 with
    [{error: err.message}]. *)
Lemma callback_failed (r : Route) (req : Request) sql values callback
  (err : JsError) :
  app r req = Query sql values callback ->
  callback (Failed err) =
  {| code := 500; payload := JObj [("error", JStr (message err))] |}.
Proof.
  destruct r; simpl.
  - intros [= <- <- <-]. reflexivity.
  - intros [= <- <- <-]. reflexivity.
  - unfold post_usuario. cbv zeta.
    destruct (negb (truthy (prop (body req) "nombre"))
              || negb (truthy (prop (body req) "email"))); [discriminate |].
    intros [= <- <- <-]. reflexivity.
  - intros [= <- <- <-]. reflexivity.
  - intros [= <- <- <-]. reflexivity.
Qed.

(** On the table a statement that fails changes nothing. *)
Lemma tabla_failed_unchanged {cmp : IdComparison} sql values (t t' : Tabla)
  (err : JsError) :
  query sql values t = (Failed err, t') -> t' = t.
Proof.
  unfold query, tabla_connection.
  destruct (prepare sql values) as [st |]; [| intros [= _ <-]; reflexivity].
  destruct st as [| v | vn vt ve | vn vt ve v | v]; simpl; try discriminate.
  - destruct (column vn), (column vt), (column ve);
      first [discriminate | intros [= _ <-]; reflexivity].
  - destruct (column vn), (column vt), (column ve);
      first [discriminate | intros [= _ <-]; reflexivity].
Qed.

(** ** Statement texts and bound values *)

(** C8: the statement a route issues does not depend on the request: two
    requests on the same route issue the same text.  The values of the
    caller (path id, [nombre], [telefono], [email]) are exactly the bound
    values, one per placeholder of the text. *)
Theorem statement_text_constant (r : Route) (req1 req2 : Request)
  sql1 values1 callback1 sql2 values2 callback2 :
  app r req1 = Query sql1 values1 callback1 ->
  app r req2 = Query sql2 values2 callback2 ->
  sql1 = sql2
  /\ values1 = caller_values r req1
  /\ placeholders sql1 = List.length values1.
Proof.
  destruct r; simpl.
  - intros [= <- <- _] [= <- _ _]. auto.
  - intros [= <- <- _] [= <- _ _]. auto.
  - unfold post_usuario. cbv zeta.
    destruct (negb (truthy (prop (body req1) "nombre"))
              || negb (truthy (prop (body req1) "email"))); [discriminate |].
    destruct (negb (truthy (prop (body req2) "nombre"))
              || negb (truthy (prop (body req2) "email"))); [discriminate |].
    intros [= <- <- _] [= <- _ _]. auto.
  - intros [= <- <- _] [= <- _ _]. auto.
  - intros [= <- <- _] [= <- _ _]. auto.
Qed.

Lemma statement_text_constant_witness :
  exists sql callback1 callback2,
    app PUT_usuarios_id eva_1 =
      Query sql [JStr "Eva"; JStr "600"; JStr "eva@x.com"; JStr "1"] callback1
    /\ app PUT_usuarios_id (by_id "1; DROP TABLE usuarios") =
         Query sql [JUndefined; JUndefined; JUndefined;
                    JStr "1; DROP TABLE usuarios"] callback2
    /\ placeholders sql = 4%nat.
Proof.
  eexists _, _, _.
  split; [reflexivity |]. split; [reflexivity |].
  exact (proj2 (proj2 (statement_text_constant PUT_usuarios_id eva_1
                         (by_id "1; DROP TABLE usuarios") _ _ _ _ _ _
                         eq_refl eq_refl))).
Defined.

(** ** The path parameter *)


(** ** Sequences on the table *)

Section OnTheTable.
Context {cmp : IdComparison}.

(** An update keeps the id of every row, hence which rows an id matches. *)
Lemma matches_overwrite (v w : JsVal) (n tl e : option string) (u : Usuario) :
  matches w (overwrite n tl e v u) = matches w u.
Proof. unfold overwrite, matches. destruct (id_eq v (u_id u)); reflexivity. Qed.

(** After an update on [v], the first row that [v] selects is a row that
    [v] matched before, now with the three new columns. *)
Lemma filter_overwrite (v : JsVal) (n tl e : option string) (l : list Usuario) :
  (exists u, In u l /\ matches v u = true) ->
  exists u rest,
    In u l /\ matches v u = true /\
    List.filter (matches v) (List.map (overwrite n tl e v) l) =
    {| u_id := u_id u; u_nombre := n; u_telefono := tl; u_email := e |} :: rest.
Proof.
  induction l as [| a l IH]; intros (u & Hin & Hm).
  - destruct Hin.
  - simpl. rewrite matches_overwrite.
    destruct (matches v a) eqn:Ha.
    + exists a. eexists. split; [left; reflexivity |]. split; [exact Ha |].
      unfold overwrite. rewrite Ha. reflexivity.
    + destruct Hin as [-> | Hin]; [congruence |].
      destruct IH as (u' & rest & Hin' & Hm' & Heq); [eauto |].
      exists u', rest. split; [right; exact Hin' |]. split; [exact Hm' | exact Heq].
Qed.

(** After a delete on [v], [v] selects nothing. *)
Lemma filter_deleted (v : JsVal) (l : list Usuario) :
  List.filter (matches v) (List.filter (fun u => negb (matches v u)) l) = [].
Proof.
  induction l as [| a l IH]; simpl; [reflexivity |].
  destruct (matches v a) eqn:Ha; simpl; [exact IH |].
  rewrite Ha. exact IH.
Qed.

Lemma deleted_none_matches (v : JsVal) (l : list Usuario) :
  Forall (fun u => matches v u = false)
         (List.filter (fun u => negb (matches v u)) l).
Proof.
  induction l as [| a l IH]; simpl; [constructor |].
  destruct (matches v a) eqn:Ha; simpl; [exact IH |].
  constructor; assumption.
Qed.

(** Get by id on the table: 404 when the id selects nothing, else the first
    selected row. *)
Lemma serve_get_tabla (req : Request) (t : Tabla) :
  serve GET_usuarios_id req t =
  (match List.filter (matches (JStr (params_id req))) (filas t) with
   | [] => {| code := 404;
              payload := JObj [("message", JStr "Usuario no encontrado")] |}
   | u :: _ => {| code := 200; payload := row_of u |}
   end, t).
Proof.
  unfold serve, app, get_usuario. cbv zeta.
  rewrite (run_query _ _ _ _ _ _ (tabla_select_by_id _ t)).
  destruct (List.filter (matches (JStr (params_id req))) (filas t)); reflexivity.
Qed.

Lemma serve_delete_tabla (req : Request) (t : Tabla) :
  serve DELETE_usuarios_id req t =
  ({| code := 200;
      payload := JObj [("message", JStr "Usuario eliminado correctamente")] |},
   {| filas := List.filter (fun u => negb (matches (JStr (params_id req)) u))
                           (filas t);
      auto_increment := auto_increment t |}).
Proof.
  unfold serve, app, delete_usuario. cbv zeta.
  rewrite (run_query _ _ _ _ _ _ (tabla_delete _ t)). reflexivity.
Qed.

Lemma serve_put_tabla (req : Request) (t : Tabla) (n tl e : option string) :
  column (prop (body req) "nombre") = Some n ->
  column (prop (body req) "telefono") = Some tl ->
  column (prop (body req) "email") = Some e ->
  serve PUT_usuarios_id req t =
  ({| code := 200;
      payload := JObj [("message", JStr "Usuario actualizado correctamente")] |},
   {| filas := List.map (overwrite n tl e (JStr (params_id req))) (filas t);
      auto_increment := auto_increment t |}).
Proof.
  intros Hn Ht He. unfold serve, app, put_usuario. cbv zeta.
  rewrite (run_query _ _ _ _ _ _ (tabla_update _ _ _ _ t _ _ _ Hn Ht He)).
  reflexivity.
Qed.

Lemma serve_all_two {DB} {conn : Connection DB} r1 req1 r2 req2
  (db db1 db2 : DB) (resp1 resp2 : Response) :
  serve r1 req1 db = (resp1, db1) ->
  serve r2 req2 db1 = (resp2, db2) ->
  serve_all [(r1, req1); (r2, req2)] db = ([resp1; resp2], db2).
Proof. intros H1 H2. cbn [serve_all]. rewrite H1, H2. reflexivity. Qed.

End OnTheTable.

Lemma prop_present (o : gmap string JsVal) (k : string) (v : JsVal) :
  o !! k = Some v -> prop o k = v.
Proof. intros Hk. unfold prop. rewrite Hk. reflexivity. Qed.

(** Update then Get by id, for whatever values the engine accepts: the
    record read back carries each bound value as the column holds it (NULL
    for [undefined], the text of a number), under the id of a row that the
    id matched. *)
Lemma update_then_get_columns {cmp : IdComparison} (t : Tabla)
  (upd get : Request) (n tl e : option string) :
  params_id get = params_id upd ->
  column (prop (body upd) "nombre") = Some n ->
  column (prop (body upd) "telefono") = Some tl ->
  column (prop (body upd) "email") = Some e ->
  (exists u, In u (filas t) /\ matches (JStr (params_id upd)) u = true) ->
  exists u t',
    In u (filas t) /\ matches (JStr (params_id upd)) u = true /\
    serve_all [(PUT_usuarios_id, upd); (GET_usuarios_id, get)] t =
      ([ {| code := 200;
            payload := JObj [("message", JStr "Usuario actualizado correctamente")] |};
         {| code := 200;
            payload := JObj [("id", JNum (u_id u)); ("nombre", text n);
                             ("telefono", text tl); ("email", text e)] |} ],
       t').
Proof.
  intros Hid Hn Ht He Hex.
  destruct (filter_overwrite (JStr (params_id upd)) n tl e (filas t) Hex)
    as (u & rest & Hin & Hm & Hf).
  exists u. eexists. split; [exact Hin |]. split; [exact Hm |].
  eapply serve_all_two.
  - apply (serve_put_tabla upd t n tl e); assumption.
  - rewrite serve_get_tabla. rewrite Hid. cbn [filas]. rewrite Hf. reflexivity.
Qed.

(** A string or [null] lands in the column and comes back as itself. *)
Lemma textual_column (v : JsVal) :
  textual v = true -> exists c, column v = Some c /\ text c = v.
Proof.
  destruct v; simpl; try discriminate; intros _.
  - exists None. auto.
  - eexists (Some _). auto.
Qed.

(** C5, as stated: a [telefono] sent as the number 600123123 is held by the
    text column as its text; the Update and the Get by id both succeed, and
    the record carries the string, not the value sent. *)
Lemma update_number_read_back_as_text :
  serve_all (conn := mysql)
    [(PUT_usuarios_id, eva_numero); (GET_usuarios_id, by_id "1")] solo_ana =
    ([ {| code := 200;
          payload := JObj [("message", JStr "Usuario actualizado correctamente")] |};
       {| code := 200;
          payload := JObj [("id", JNum 1); ("nombre", JStr "Eva");
                           ("telefono", JStr "600123123");
                           ("email", JStr "eva@x.com")] |} ],
     {| filas := [ {| u_id := 1; u_nombre := Some "Eva";
                      u_telefono := Some "600123123";
                      u_email := Some "eva@x.com" |} ];
        auto_increment := 2 |})
  /\ prop (body eva_numero) "telefono" = JNum 600123123
  /\ JStr "600123123" <> prop (body eva_numero) "telefono".
Proof.
  split; [reflexivity |]. split; [reflexivity |].
  change (prop (body eva_numero) "telefono") with (JNum 600123123).
  discriminate.
Qed.

(** C5, amended: on the table, for an id that matches a stored row and an
    Update whose body carries strings or [null] as [nombre], [telefono] and
    [email]: the Update is answered 200, the Get by id that follows on the
    same id is answered 200 too, and its record is a row the id matched
    with exactly the three values sent in the three fields. *)
Theorem update_then_get {cmp : IdComparison} (t : Tabla) (upd get : Request)
  (vn vt ve : JsVal) :
  params_id get = params_id upd ->
  body upd !! "nombre" = Some vn ->
  body upd !! "telefono" = Some vt ->
  body upd !! "email" = Some ve ->
  textual vn = true -> textual vt = true -> textual ve = true ->
  (exists u, In u (filas t) /\ matches (JStr (params_id upd)) u = true) ->
  exists u t',
    In u (filas t) /\ matches (JStr (params_id upd)) u = true /\
    serve_all [(PUT_usuarios_id, upd); (GET_usuarios_id, get)] t =
      ([ {| code := 200;
            payload := JObj [("message", JStr "Usuario actualizado correctamente")] |};
         {| code := 200;
            payload := JObj [("id", JNum (u_id u)); ("nombre", vn);
                             ("telefono", vt); ("email", ve)] |} ],
       t').
Proof.
  intros Hid Hn Ht He Tn Tt Te Hex.
  apply prop_present in Hn, Ht, He.
  destruct (textual_column vn Tn) as (cn & Hcn & Hrn).
  destruct (textual_column vt Tt) as (ct & Hct & Hrt).
  destruct (textual_column ve Te) as (ce & Hce & Hre).
  rewrite <- Hrn, <- Hrt, <- Hre.
  apply (update_then_get_columns t upd get cn ct ce);
    [exact Hid | rewrite Hn | rewrite Ht | rewrite He | exact Hex]; assumption.
Qed.

Lemma update_then_get_witness :
  exists t',
    serve_all (conn := mysql)
      [(PUT_usuarios_id, eva_null); (GET_usuarios_id, by_id "1")] solo_ana =
      ([ {| code := 200;
            payload := JObj [("message", JStr "Usuario actualizado correctamente")] |};
         {| code := 200;
            payload := JObj [("id", JNum 1); ("nombre", JStr "Eva");
                             ("telefono", JNull); ("email", JStr "eva@x.com")] |} ],
       t').
Proof.
  destruct (update_then_get (cmp := decimal_ids) solo_ana eva_null (by_id "1")
              (JStr "Eva") JNull (JStr "eva@x.com")
              eq_refl eq_refl eq_refl eq_refl eq_refl eq_refl eq_refl)
    as (u & t' & Hin & _ & Hs).
  - eexists. split; [left; reflexivity | reflexivity].
  - exists t'. destruct Hin as [<- | []]. exact Hs.
Defined.

(** C6: on the table, for every id, a Delete is answered 200 and the Get by
    id that follows on the same id is answered 404.  The rows the id matched
    are gone from the table and the counter of generated ids is where it
    was, so no later Create is given the id of a removed row. *)
Theorem delete_then_get {cmp : IdComparison} (t : Tabla) (id : string)
  (b1 b2 : gmap string JsVal) :
  exists t',
    serve_all [(DELETE_usuarios_id, {| params_id := id; body := b1 |});
               (GET_usuarios_id, {| params_id := id; body := b2 |})] t =
      ([ {| code := 200;
            payload := JObj [("message", JStr "Usuario eliminado correctamente")] |};
         {| code := 404;
            payload := JObj [("message", JStr "Usuario no encontrado")] |} ],
       t')
    /\ Forall (fun u => matches (JStr id) u = false) (filas t')
    /\ auto_increment t' = auto_increment t.
Proof.
  eexists. split; [| split].
  - eapply serve_all_two.
    + apply serve_delete_tabla.
    + rewrite serve_get_tabla. cbn [filas params_id].
      rewrite filter_deleted. reflexivity.
  - cbn [filas params_id]. apply deleted_none_matches.
  - reflexivity.
Qed.

(** ** Generated ids are not handed out twice *)

Section GeneratedIds.
Context {cmp : IdComparison}.

Lemma below_counter_weaken (l : list Usuario) (c c' : Z) :
  c <= c' -> Forall (fun u => u_id u < c) l -> Forall (fun u => u_id u < c') l.
Proof.
  intros Hc Hall. induction Hall as [| u l Hu _ IH]; constructor; [lia | exact IH].
Qed.

(** No statement brings an id to or above the counter, and the counter
    never goes back. *)
Lemma below_counter_query sql values (t t' : Tabla) (o : Outcome) :
  below_counter t ->
  query sql values t = (o, t') ->
  below_counter t' /\ auto_increment t <= auto_increment t'.
Proof.
  unfold below_counter, query, tabla_connection. intros Hinv.
  destruct (prepare sql values) as [st |];
    [| intros [= _ <-]; split; [exact Hinv | lia]].
  destruct st as [| v | vn vt ve | vn vt ve v | v]; simpl.
  - intros [= _ <-]. split; [exact Hinv | lia].
  - intros [= _ <-]. split; [exact Hinv | lia].
  - destruct (column vn), (column vt), (column ve);
      intros [= _ <-]; try (split; [exact Hinv | lia]).
    simpl. split; [| lia].
    apply Forall_app. split.
    + apply (below_counter_weaken _ (auto_increment t)); [lia | exact Hinv].
    + constructor; [simpl; lia | constructor].
  - destruct (column vn), (column vt), (column ve);
      intros [= _ <-]; try (split; [exact Hinv | lia]).
    simpl. split; [| lia].
    induction Hinv as [| u l Hu _ IH]; simpl; constructor; [| exact IH].
    unfold overwrite. destruct (matches v u); simpl; exact Hu.
  - intros [= _ <-]. simpl. split; [| lia].
    induction Hinv as [| u l Hu _ IH]; simpl; [constructor |].
    destruct (negb (matches v u)); [constructor; assumption | exact IH].
Qed.

Lemma below_counter_serve (r : Route) (req : Request) (t t' : Tabla)
  (resp : Response) :
  below_counter t ->
  serve r req t = (resp, t') ->
  below_counter t' /\ auto_increment t <= auto_increment t'.
Proof.
  intros Hinv. unfold serve, run.
  destruct (app r req) as [r0 | sql values callback].
  - intros [= _ <-]. split; [exact Hinv | lia].
  - destruct (query sql values t) as [o t1] eqn:Hq. intros [= _ <-].
    exact (below_counter_query _ _ _ _ _ Hinv Hq).
Qed.

Lemma below_counter_serve_all (rs : list (Route * Request)) (t t' : Tabla)
  (resps : list Response) :
  below_counter t ->
  serve_all rs t = (resps, t') ->
  below_counter t' /\ auto_increment t <= auto_increment t'.
Proof.
  revert t resps. induction rs as [| [r req] rs IH]; intros t resps Hinv; simpl.
  - intros [= _ <-]. split; [exact Hinv | lia].
  - destruct (serve r req t) as [resp t1] eqn:Hs.
    destruct (serve_all rs t1) as [resps1 t2] eqn:Hrest.
    intros [= _ <-].
    destruct (below_counter_serve _ _ _ _ _ Hinv Hs) as [Hinv1 Hle1].
    destruct (IH _ _ Hinv1 Hrest) as [Hinv2 Hle2].
    split; [exact Hinv2 | lia].
Qed.

(** A Create answered 201 carries the counter as its id. *)
Lemma created_id (req : Request) (t t' : Tabla) (resp : Response) :
  serve POST_usuarios req t = (resp, t') ->
  code resp = 201 ->
  exists rest, payload resp = JObj (("id", JNum (auto_increment t)) :: rest).
Proof.
  unfold serve, app, post_usuario. cbv zeta.
  destruct (negb (truthy (prop (body req) "nombre"))
            || negb (truthy (prop (body req) "email"))).
  - intros [= <- _]. discriminate.
  - unfold run, query, tabla_connection.
    change (prepare "INSERT INTO usuarios (nombre, telefono, email) VALUES (?, ?, ?)"
              [prop (body req) "nombre"; prop (body req) "telefono";
               prop (body req) "email"])
      with (Some (Insert (prop (body req) "nombre") (prop (body req) "telefono")
                         (prop (body req) "email"))).
    cbv iota. simpl execute.
    destruct (column (prop (body req) "nombre")),
             (column (prop (body req) "telefono")),
             (column (prop (body req) "email"));
      intros [= <- _]; first [discriminate | intros _; eexists; reflexivity].
Qed.

(** Whatever requests come after, the id of a later Create is above the id
    of every row the table ever held before, removed or not. *)
Lemma id_not_reused (t t1 t2 : Tabla) (rs : list (Route * Request))
  (resps : list Response) (req : Request) (resp : Response) :
  below_counter t ->
  serve_all rs t = (resps, t1) ->
  serve POST_usuarios req t1 = (resp, t2) ->
  code resp = 201 ->
  exists i rest,
    payload resp = JObj (("id", JNum i) :: rest)
    /\ Forall (fun u => u_id u < i) (filas t).
Proof.
  intros Hinv Hrs Hpost H201.
  destruct (created_id _ _ _ _ Hpost H201) as [rest Hrest].
  destruct (below_counter_serve_all _ _ _ _ Hinv Hrs) as [_ Hle].
  exists (auto_increment t1), rest. split; [exact Hrest |].
  apply (below_counter_weaken _ (auto_increment t)); [exact Hle | exact Hinv].
Qed.

End GeneratedIds.

(** ** What each route answers, and when *)

(** Only the guard of Create answers without a statement. *)
Lemma app_done (r : Route) (req : Request) (resp : Response) :
  app r req = Done resp ->
  r = POST_usuarios
  /\ resp = {| code := 400;
               payload := JObj [("message", JStr "Nombre y email son obligatorios")] |}
  /\ (truthy (prop (body req) "nombre") = false \/
      truthy (prop (body req) "email") = false).
Proof.
  destruct r; simpl; try discriminate.
  unfold post_usuario. cbv zeta.
  destruct (truthy (prop (body req) "nombre")) eqn:Hn;
    destruct (truthy (prop (body req) "email")) eqn:He; simpl;
    try discriminate; intros [= <-]; auto.
Qed.

(** The answer of each callback to a statement that succeeded. *)
Lemma callback_succeeded (r : Route) (req : Request) sql values callback
  (results : Results) :
  app r req = Query sql values callback ->
  callback (Succeeded results) =
  match r with
  | GET_usuarios => {| code := 200; payload := value_of results |}
  | GET_usuarios_id =>
      if is_zero (length_of results)
      then {| code := 404;
              payload := JObj [("message", JStr "Usuario no encontrado")] |}
      else {| code := 200; payload := first_of results |}
  | POST_usuarios =>
      {| code := 201;
         payload := JObj [("id", insertId_of results);
                          ("nombre", prop (body req) "nombre");
                          ("telefono", prop (body req) "telefono");
                          ("email", prop (body req) "email")] |}
  | PUT_usuarios_id =>
      {| code := 200;
         payload := JObj [("message", JStr "Usuario actualizado correctamente")] |}
  | DELETE_usuarios_id =>
      {| code := 200;
         payload := JObj [("message", JStr "Usuario eliminado correctamente")] |}
  end.
Proof.
  destruct r; simpl.
  - intros [= <- <- <-]. reflexivity.
  - intros [= <- <- <-]. simpl.
    destruct (is_zero (length_of results)); reflexivity.
  - unfold post_usuario. cbv zeta.
    destruct (negb (truthy (prop (body req) "nombre"))
              || negb (truthy (prop (body req) "email"))); [discriminate |].
    intros [= <- <- <-]. reflexivity.
  - intros [= <- <- <-]. reflexivity.
  - intros [= <- <- <-]. reflexivity.
Qed.

(** [results.length === 0] holds of the empty array of rows only. *)
Lemma is_zero_length (results : Results) :
  is_zero (length_of results) = true <-> results = Rows [].
Proof.
  destruct results as [[| row rows] | i n]; simpl; split;
    first [reflexivity | discriminate].
Qed.

(** Serving, by cases on what the route does. *)
Lemma serve_cases {DB} {conn : Connection DB} (r : Route) (req : Request)
  (db : DB) :
  (exists resp, app r req = Done resp /\ issued (app r req) db = None
                /\ serve r req db = (resp, db))
  \/ (exists sql values callback o db',
        app r req = Query sql values callback
        /\ query sql values db = (o, db')
        /\ issued (app r req) db = Some o
        /\ serve r req db = (callback o, db')).
Proof.
  unfold serve, issued, run.
  destruct (app r req) as [resp | sql values callback].
  - left. exists resp. auto.
  - right. destruct (query sql values db) as [o db'] eqn:Hq.
    exists sql, values, callback, o, db'. auto.
Qed.

(** X1: when the SELECT of the List route comes back with rows, however
    many, the answer is 200 with that array as it came; with no rows it is
    200 with the empty array, not a 404. *)
Theorem list_answers_rows {DB} {conn : Connection DB} (req : Request)
  (db db' : DB) (rows : list JsVal) :
  query "SELECT * FROM usuarios" [] db = (Succeeded (Rows rows), db') ->
  serve GET_usuarios req db = ({| code := 200; payload := JArr rows |}, db').
Proof.
  intros Hq. unfold serve, app, get_usuarios. cbv zeta.
  rewrite (run_query _ _ _ _ _ _ Hq). reflexivity.
Qed.

Lemma list_answers_rows_witness :
  serve (conn := mysql) GET_usuarios (by_id "") vacia =
    ({| code := 200; payload := JArr [] |}, vacia).
Proof.
  apply (list_answers_rows (conn := mysql) (by_id "") vacia vacia []).
  reflexivity.
Defined.

(** X2: Create hands the INSERT to the connection exactly when [nombre] and
    [email] are both truthy.  [telefono] plays no part, and neither does the
    type of the values: a number passes as a name. *)
Theorem create_issues_insert_iff (req : Request) :
  (exists callback,
     post_usuario req =
     Query "INSERT INTO usuarios (nombre, telefono, email) VALUES (?, ?, ?)"
           [prop (body req) "nombre"; prop (body req) "telefono";
            prop (body req) "email"] callback)
  <-> truthy (prop (body req) "nombre") = true
      /\ truthy (prop (body req) "email") = true.
Proof.
  split.
  - intros [callback Hq].
    destruct (truthy (prop (body req) "nombre")) eqn:Hn;
      destruct (truthy (prop (body req) "email")) eqn:He; auto;
      rewrite post_usuario_falsy in Hq by auto; discriminate.
  - intros [Hn He]. apply post_usuario_truthy; assumption.
Qed.

Lemma create_issues_insert_iff_witness :
  exists callback,
    post_usuario cinco =
    Query "INSERT INTO usuarios (nombre, telefono, email) VALUES (?, ?, ?)"
          [JNum 5; JUndefined; JStr "cinco@x.com"] callback.
Proof.
  apply (proj2 (create_issues_insert_iff cinco)).
  split; reflexivity.
Defined.

(** X3: when the INSERT succeeds, Create answers 201 with the [insertId]
    of the result as [id] and the three values as the request gave them;
    nothing is read back from the store. *)
Theorem create_answers_request_values {DB} {conn : Connection DB}
  (req : Request) (db db' : DB) (i n : Z) :
  truthy (prop (body req) "nombre") = true ->
  truthy (prop (body req) "email") = true ->
  query "INSERT INTO usuarios (nombre, telefono, email) VALUES (?, ?, ?)"
        [prop (body req) "nombre"; prop (body req) "telefono";
         prop (body req) "email"] db
    = (Succeeded (Header i n), db') ->
  serve POST_usuarios req db =
    ({| code := 201;
        payload := JObj [("id", JNum i);
                         ("nombre", prop (body req) "nombre");
                         ("telefono", prop (body req) "telefono");
                         ("email", prop (body req) "email")] |},
     db').
Proof.
  intros Hn He Hq. unfold serve, app, post_usuario. cbv zeta.
  rewrite Hn, He. cbn [negb orb].
  rewrite (run_query _ _ _ _ _ _ Hq). reflexivity.
Qed.

Lemma create_answers_request_values_witness :
  serve (conn := mysql) POST_usuarios cinco solo_ana =
    ({| code := 201;
        payload := JObj [("id", JNum 2); ("nombre", JNum 5);
                         ("telefono", JUndefined);
                         ("email", JStr "cinco@x.com")] |},
     {| filas := filas solo_ana ++
                 [ {| u_id := 2; u_nombre := Some "5"; u_telefono := None;
                      u_email := Some "cinco@x.com" |} ];
        auto_increment := 3 |}).
Proof.
  apply (create_answers_request_values (conn := mysql) cinco solo_ana _ 2 1);
    reflexivity.
Defined.

(** X4: whatever the request and whatever the connection does, a route
    answers with one of the status codes written in it: 200 or 500 for
    List, Update and Delete, 200, 404 or 500 for Get by id, 201, 400 or 500
    for Create. *)
Theorem status_is_one_of_the_route {DB} {conn : Connection DB}
  (r : Route) (req : Request) (db : DB) :
  In (code (fst (serve r req db))) (statuses r).
Proof.
  destruct (serve_cases r req db) as
    [(resp & Happ & _ & Hs) | (sql & values & cb & o & db' & Happ & _ & _ & Hs)];
    rewrite Hs; cbn [fst].
  - destruct (app_done _ _ _ Happ) as (-> & -> & _). simpl. auto.
  - destruct o as [err | results].
    + rewrite (callback_failed _ _ _ _ _ err Happ).
      destruct r; simpl; auto.
    + rewrite (callback_succeeded _ _ _ _ _ results Happ).
      destruct r; simpl; auto.
      destruct (is_zero (length_of results)); simpl; auto.
Qed.

(** X5: a route answers 500 exactly when the statement it issued came back
    with an error, and the body is then [{error: err.message}] for that
    error. *)
Theorem status_500_iff_store_failed {DB} {conn : Connection DB}
  (r : Route) (req : Request) (db : DB) :
  code (fst (serve r req db)) = 500 <->
  exists err,
    issued (app r req) db = Some (Failed err)
    /\ payload (fst (serve r req db)) = JObj [("error", JStr (message err))].
Proof.
  destruct (serve_cases r req db) as
    [(resp & Happ & Hi & Hs) | (sql & values & cb & o & db' & Happ & _ & Hi & Hs)];
    rewrite Hs, Hi; cbn [fst].
  - destruct (app_done _ _ _ Happ) as (_ & -> & _). simpl.
    split; [discriminate | intros (err & Hf & _); discriminate].
  - destruct o as [err | results].
    + rewrite (callback_failed _ _ _ _ _ err Happ). simpl.
      split; [intros _; exists err; auto | reflexivity].
    + split; [| intros (err & Hf & _); discriminate].
      rewrite (callback_succeeded _ _ _ _ _ results Happ).
      destruct r; simpl; try discriminate.
      destruct (is_zero (length_of results)); discriminate.
Qed.

Lemma status_500_iff_store_failed_witness :
  code (fst (serve (conn := unreachable {| message := "connect ECONNREFUSED" |})
                   DELETE_usuarios_id (by_id "1") tt)) = 500.
Proof.
  apply (proj2 (status_500_iff_store_failed
                  (conn := unreachable {| message := "connect ECONNREFUSED" |})
                  DELETE_usuarios_id (by_id "1") tt)).
  exists {| message := "connect ECONNREFUSED" |}. split; reflexivity.
Defined.

(** X6: a 400 is the answer of Create to a falsy [nombre] or [email] and of
    nothing else: no other route answers 400, and Create does not answer it
    for any other reason. *)
Theorem status_400_iff_create_guard {DB} {conn : Connection DB}
  (r : Route) (req : Request) (db : DB) :
  code (fst (serve r req db)) = 400 <->
  r = POST_usuarios
  /\ (truthy (prop (body req) "nombre") = false \/
      truthy (prop (body req) "email") = false).
Proof.
  split.
  - destruct (serve_cases r req db) as
      [(resp & Happ & _ & Hs) | (sql & values & cb & o & db' & Happ & _ & _ & Hs)];
      rewrite Hs; cbn [fst].
    + destruct (app_done _ _ _ Happ) as (-> & _ & Hf). auto.
    + destruct o as [err | results].
      * rewrite (callback_failed _ _ _ _ _ err Happ). discriminate.
      * rewrite (callback_succeeded _ _ _ _ _ results Happ).
        destruct r; simpl; try discriminate.
        destruct (is_zero (length_of results)); discriminate.
  - intros [-> Hf]. unfold serve, app.
    rewrite (post_usuario_falsy req Hf). reflexivity.
Qed.

Lemma status_400_iff_create_guard_witness :
  code (fst (serve (conn := mysql) POST_usuarios solo_telefono solo_ana)) = 400.
Proof.
  apply (proj2 (status_400_iff_create_guard (conn := mysql)
                  POST_usuarios solo_telefono solo_ana)).
  split; [reflexivity | left; reflexivity].
Defined.

(** X7: a 404 is the answer of Get by id to a SELECT that succeeded with an
    empty array of rows and of nothing else; List, Create, Update and Delete
    never answer 404. *)
Theorem status_404_iff_no_row {DB} {conn : Connection DB}
  (r : Route) (req : Request) (db : DB) :
  code (fst (serve r req db)) = 404 <->
  r = GET_usuarios_id
  /\ issued (app r req) db = Some (Succeeded (Rows [])).
Proof.
  destruct (serve_cases r req db) as
    [(resp & Happ & Hi & Hs) | (sql & values & cb & o & db' & Happ & _ & Hi & Hs)];
    rewrite Hs, Hi; cbn [fst].
  - destruct (app_done _ _ _ Happ) as (_ & -> & _). simpl.
    split; [discriminate | intros [_ Hf]; discriminate].
  - destruct o as [err | results].
    + rewrite (callback_failed _ _ _ _ _ err Happ). simpl.
      split; [discriminate | intros [_ Hf]; discriminate].
    + rewrite (callback_succeeded _ _ _ _ _ results Happ).
      destruct r; simpl;
        try (split; [discriminate | intros [Hr _]; discriminate]).
      destruct (is_zero (length_of results)) eqn:Hz; simpl.
      * apply is_zero_length in Hz. subst results. split; auto.
      * split; [discriminate |]. intros [_ [= ->]]. discriminate.
Qed.

Lemma status_404_iff_no_row_witness :
  code (fst (serve (conn := mysql) GET_usuarios_id (by_id "999") solo_ana)) = 404.
Proof.
  apply (proj2 (status_404_iff_no_row (conn := mysql)
                  GET_usuarios_id (by_id "999") solo_ana)).
  split; reflexivity.
Defined.

(** ** What a route reads of the request *)

(** X8: a route reads nothing of the request but its caller values: two
    requests that agree on them get the same answer and leave the same
    store.  Other properties of the body, an [id] among them, are ignored,
    and so is the body for Get by id and Delete. *)
Theorem route_reads_caller_values_only {DB} {conn : Connection DB}
  (r : Route) (req1 req2 : Request) (db : DB) :
  caller_values r req1 = caller_values r req2 ->
  serve r req1 db = serve r req2 db.
Proof.
  destruct r; simpl; unfold serve, app.
  - intros _. reflexivity.
  - intros [= Hid]. unfold get_usuario. cbv zeta. rewrite Hid. reflexivity.
  - intros [= Hn Ht He]. unfold post_usuario. cbv zeta.
    rewrite Hn, Ht, He. reflexivity.
  - intros [= Hn Ht He Hid]. unfold put_usuario. cbv zeta.
    rewrite Hn, Ht, He, Hid. reflexivity.
  - intros [= Hid]. unfold delete_usuario. cbv zeta. rewrite Hid. reflexivity.
Qed.

Lemma route_reads_caller_values_only_witness :
  serve (conn := mysql) POST_usuarios ana_extra vacia =
  serve (conn := mysql) POST_usuarios ana_nombre vacia.
Proof.
  apply (route_reads_caller_values_only (conn := mysql)
           POST_usuarios ana_extra ana_nombre vacia).
  reflexivity.
Defined.

(** X9: Update has no guard.  A body that Create refuses with 400, one
    with a falsy [nombre] or [email], is bound as it is by Update, and when
    the UPDATE succeeds the answer is the 200 confirmation. *)
Theorem update_not_validated {DB} {conn : Connection DB}
  (req : Request) (db db' : DB) (result : Results) :
  truthy (prop (body req) "nombre") = false \/
  truthy (prop (body req) "email") = false ->
  query "UPDATE usuarios SET nombre = ?, telefono = ?, email = ? WHERE id = ?"
        [prop (body req) "nombre"; prop (body req) "telefono";
         prop (body req) "email"; JStr (params_id req)] db
    = (Succeeded result, db') ->
  serve POST_usuarios req db =
    ({| code := 400;
        payload := JObj [("message", JStr "Nombre y email son obligatorios")] |},
     db)
  /\ serve PUT_usuarios_id req db =
       ({| code := 200;
           payload := JObj [("message", JStr "Usuario actualizado correctamente")] |},
        db').
Proof.
  intros Hf Hq. split.
  - unfold serve, app. rewrite (post_usuario_falsy req Hf). reflexivity.
  - unfold serve, app, put_usuario. cbv zeta.
    rewrite (run_query _ _ _ _ _ _ Hq). reflexivity.
Qed.

Lemma update_not_validated_witness :
  serve (conn := mysql) PUT_usuarios_id (by_id "1") solo_ana =
    ({| code := 200;
        payload := JObj [("message", JStr "Usuario actualizado correctamente")] |},
     {| filas := [ {| u_id := 1; u_nombre := None; u_telefono := None;
                      u_email := None |} ];
        auto_increment := 2 |}).
Proof.
  apply (proj2 (update_not_validated (conn := mysql) (by_id "1") solo_ana _
                  (Header 0 1) (or_introl eq_refl) eq_refl)).
Defined.

(** ** Requests in sequence *)

Lemma serve_all_app {DB} {conn : Connection DB}
  (rs1 rs2 : list (Route * Request)) (db db1 db2 : DB)
  (a b : list Response) :
  serve_all rs1 db = (a, db1) ->
  serve_all rs2 db1 = (b, db2) ->
  serve_all (rs1 ++ rs2)%list db = ((a ++ b)%list, db2).
Proof.
  revert db a. induction rs1 as [| [r req] rs1 IH]; intros db a; simpl.
  - intros [= <- <-] H2. exact H2.
  - destruct (serve r req db) as [resp dbr].
    destruct (serve_all rs1 dbr) as [resps dbs] eqn:Hrest.
    intros [= <- <-] H2.
    rewrite (IH _ _ Hrest H2). reflexivity.
Qed.

(** X10: a Create that is refused leaves no trace.  Placed anywhere in a
    sequence of requests it gets its 400, and the answers to the requests
    before and after it and the final store are those of the sequence
    without it. *)
Theorem refused_create_leaves_no_trace {DB} {conn : Connection DB}
  (before after : list (Route * Request)) (bad : Request)
  (db db1 db2 : DB) (a b : list Response) :
  truthy (prop (body bad) "nombre") = false \/
  truthy (prop (body bad) "email") = false ->
  serve_all before db = (a, db1) ->
  serve_all after db1 = (b, db2) ->
  serve_all (before ++ (POST_usuarios, bad) :: after)%list db =
    ((a ++ {| code := 400;
              payload := JObj [("message", JStr "Nombre y email son obligatorios")] |}
        :: b)%list, db2)
  /\ serve_all (before ++ after)%list db = ((a ++ b)%list, db2).
Proof.
  intros Hf Hb Ha. split.
  - apply (serve_all_app _ _ _ db1 _ _ _ Hb).
    cbn [serve_all]. unfold serve at 1. unfold app.
    rewrite (post_usuario_falsy bad Hf). rewrite run_done.
    rewrite Ha. reflexivity.
  - exact (serve_all_app _ _ _ _ _ _ _ Hb Ha).
Qed.

Lemma refused_create_leaves_no_trace_witness :
  serve_all (conn := mysql)
    ([(POST_usuarios, ana_nombre)] ++ (POST_usuarios, solo_telefono)
       :: [(GET_usuarios, by_id "")])%list vacia =
    (([ {| code := 201;
          payload := JObj [("id", JNum 1); ("nombre", JStr "Ana");
                           ("telefono", JUndefined); ("email", JStr "ana@x.com")] |} ]
     ++ {| code := 400;
           payload := JObj [("message", JStr "Nombre y email son obligatorios")] |}
     :: [ {| code := 200;
             payload := JArr [JObj [("id", JNum 1); ("nombre", JStr "Ana");
                                    ("telefono", JNull);
                                    ("email", JStr "ana@x.com")]] |} ])%list,
     solo_ana).
Proof.
  apply (proj1 (refused_create_leaves_no_trace (conn := mysql)
                  [(POST_usuarios, ana_nombre)] [(GET_usuarios, by_id "")]
                  solo_telefono vacia solo_ana solo_ana _ _
                  (or_introl eq_refl) eq_refl eq_refl)).
Defined.

(** ** A store error in a sequence of requests *)



